(** * sugar: Must, Try, Ptr, Zero and Handle

    A shallow embedding of the Go package [sugar] (handle.go, ptr.go and the
    files holding [Try] and [Must]) together with the facts its
    specification states about it.

    Go runtime conventions fixed by the embedding (Go 1.21 and later, the
    runtime the package's tests are written against):
    - an interface value is either nil or a dynamic value;
    - [panic(v)] with a nil [v] raises a [*runtime.PanicNilError];
    - [recover()] yields nil exactly when the goroutine is not panicking;
    - calling a nil function value raises the runtime's nil-dereference
      error;
    - distinct variables have distinct addresses, unless their type has
      size zero: where such a variable lives is the runtime's choice. *)

From Stdlib Require Import ZArith String List.
From stdpp Require Import base option strings gmap fin_sets pretty.

Local Open Scope string_scope.

(** ** Go types and their values *)

Module GoTypes.

(** Addresses of heap variables. *)
Definition loc := positive.

(** The representative kinds of Go type: integers, text, booleans,
    containers (slices and maps), references (pointers) and aggregates
    (structs, given by their named fields in declaration order). *)
Inductive kind : Type :=
  | KInt
  | KString
  | KBool
  | KSlice (elem : kind)
  | KMap (key val : kind)
  | KPtr (elem : kind)
  | KStruct (fs : fields)
with fields : Type :=
  | FNil
  | FCons (name : string) (F : kind) (rest : fields).

Scheme kind_fields_ind := Induction for kind Sort Prop
  with fields_kind_ind := Induction for fields Sort Prop.

(** A slice value is a header onto a backing array. *)
Record slice_header := SliceHeader {
  slice_base : loc;
  slice_len : nat;
  slice_cap : nat
}.

(** The values of each kind.  The nil slice, nil map and nil pointer are
    [None]; a struct is the tuple of its fields in declaration order. *)
Fixpoint carrier (T : kind) : Type :=
  match T with
  | KInt => Z
  | KString => string
  | KBool => bool
  | KSlice _ => option slice_header
  | KMap _ _ => option loc
  | KPtr _ => option loc
  | KStruct fs => carrier_fields fs
  end
with carrier_fields (fs : fields) : Type :=
  match fs with
  | FNil => unit
  | FCons _ F rest => (carrier F * carrier_fields rest)%type
  end.

(** What the language gives a variable declared without an initialiser
    ([var x T]): false for booleans, 0 for numeric types, the empty string
    for strings, nil for pointers, slices and maps, and, recursively, every
    field of a struct set the same way. *)
Fixpoint declared (T : kind) : carrier T :=
  match T with
  | KInt => 0%Z
  | KString => EmptyString
  | KBool => false
  | KSlice _ => None
  | KMap _ _ => None
  | KPtr _ => None
  | KStruct fs => declared_fields fs
  end
with declared_fields (fs : fields) : carrier_fields fs :=
  match fs with
  | FNil => tt
  | FCons _ F rest => (declared F, declared_fields rest)
  end.

(** Modelled from the spec: zero.go, the file that defines [Zero], is not
    among the sources.  Section 4.1 has it return the canonical default
    value of its type argument: numeric 0, empty text, false, the absent
    container, the null reference, and for an aggregate the value whose
    fields are all defaulted. *)
Fixpoint Zero (T : kind) : carrier T :=
  match T with
  | KInt => 0%Z
  | KString => ""
  | KBool => false
  | KSlice _ | KMap _ _ => None
  | KPtr _ => None
  | KStruct fs => Zero_fields fs
  end
with Zero_fields (fs : fields) : carrier_fields fs :=
  match fs with
  | FNil => tt
  | FCons _ F rest => (Zero F, Zero_fields rest)
  end.

End GoTypes.

(** ** The runtime: errors, interface values, panics *)

Module Runtime.
Import GoTypes.

(** Errors raised by the runtime itself. *)
Inductive runtime_error : Type :=
  | PanicNilError     (* panic called with a nil argument *)
  | NilDereference.   (* call through a nil function value *)

(** A non-nil [error]: either a value of the program (made by [errors.New],
    [fmt.Errorf] or a type of its own), identified by its address and
    carrying the text its [Error] method returns, or a runtime error. *)
Inductive error_obj : Type :=
  | ErrorAt (a : loc) (msg : string)
  | RuntimeError (r : runtime_error).
Arguments ErrorAt a%_positive msg%_string.

(** The interface type [error]; [None] is nil. *)
Definition error := option error_obj.

Definition Error (e : error_obj) : string :=
  match e with
  | ErrorAt _ msg => msg
  | RuntimeError PanicNilError => "panic called with nil argument"
  | RuntimeError NilDereference =>
      "runtime error: invalid memory address or nil pointer dereference"
  end.

(** A dynamic value: what a non-nil interface of type [any] holds. *)
Inductive dynval : Type :=
  | DynValue (T : kind) (v : carrier T)
  | DynError (e : error_obj).

(** The interface type [any]; [None] is nil. *)
Definition any := option dynval.

(** Conversion of an [error] to [any], as at [panic(err)]. *)
Definition error_to_any (err : error) : any := DynError <$> err.

(** What a callback can be observed doing. *)
Inductive event : Type :=
  | EnterFunc                     (* a [func() T] value was entered *)
  | EnterHandler (err : error)    (* a [Handler] value was entered *)
  | Output (line : string).       (* a line written by a callback *)

(** The state a call runs in: the allocator's next address and the events
    so far, latest first. *)
Record world := World {
  next_addr : loc;
  trace : list event
}.
Arguments World next_addr%_positive trace%_list.

Definition record (ev : event) (w : world) : world :=
  World (next_addr w) (ev :: trace w).

(** How a call ends: with its results, or panicking with a payload.  The
    payload is what [recover()] would return, and is never nil. *)
Inductive outcome (A : Type) : Type :=
  | Returned (a : A)
  | Panicking (p : dynval).
Arguments Returned {A} a.
Arguments Panicking {A} p.

Definition M (A : Type) : Type := world -> outcome A * world.

Definition ret {A} (a : A) : M A := fun w => (Returned a, w).

Definition bind {A B} (m : M A) (k : A -> M B) : M B :=
  fun w =>
    match m w with
    | (Returned a, w') => k a w'
    | (Panicking p, w') => (Panicking p, w')
    end.

Notation "x <- m ;; k" := (bind m (fun x => k))
  (at level 20, m at level 99, k at level 200, only parsing).

(** The built-in [panic]: a nil argument is replaced by a
    [*runtime.PanicNilError]. *)
Definition gopanic {A} (v : any) : M A :=
  fun w => (Panicking (default (DynError (RuntimeError PanicNilError)) v), w).

(** [errors.New]: a new error value at a fresh address. *)
Definition errors_New (msg : string) : M error_obj :=
  fun w => (Returned (ErrorAt (next_addr w) msg),
            World (Pos.succ (next_addr w)) (trace w)).

(** Writing a line, for callbacks that log. *)
Definition output (line : string) : M unit :=
  fun w => (Returned tt, record (Output line) w).

(** Function values; [None] is the nil function. *)
Definition func0 (A : Type) : Type := option (M A).
Definition Handler : Type := option (error -> M error).

(** The call [f()]. *)
Definition call0 {A} (f : func0 A) : M A :=
  match f with
  | Some body => fun w => body (record EnterFunc w)
  | None => gopanic (Some (DynError (RuntimeError NilDereference)))
  end.

(** The call [h(err)]. *)
Definition call_handler (h : Handler) (err : error) : M error :=
  match h with
  | Some body => fun w => body err (record (EnterHandler err) w)
  | None => gopanic (Some (DynError (RuntimeError NilDereference)))
  end.

(** Whether a run ended in a panic. *)
Definition panicked {A} (r : outcome A * world) : bool :=
  match r with
  | (Panicking _, _) => true
  | (Returned _, _) => false
  end.

(** How many times a handler was entered, according to a trace. *)
Definition is_handler_entry (ev : event) : bool :=
  match ev with
  | EnterHandler _ => true
  | _ => false
  end.

Definition handler_entries (tr : list event) : nat :=
  length (List.filter is_handler_entry tr).

End Runtime.

(** ** The package *)

Module Sugar.
Import GoTypes Runtime.

Section Fmt.

(** Package fmt is not part of the repository: how the verb [%v] renders
    an operand that has no [Error] method is a parameter. *)
Context (fmt_value : forall T : kind, carrier T -> string).

(** [fmt.Sprintf("%v", a)]: a nil operand prints as [<nil>], an operand
    that is an error prints what its [Error] method returns. *)
Definition Sprint (a : any) : string :=
  match a with
  | None => "<nil>"
  | Some (DynError e) => Error e
  | Some (DynValue T v) => fmt_value T v
  end.

(** [fmt.Errorf(prefix + "%v", a)]: without the verb [%w] the result is
    [errors.New] of the formatted text. *)
Definition Errorf (prefix : string) (a : any) : M error :=
  e <- errors_New (prefix ++ Sprint a) ;;
  ret (Some e).

(** The closure that [Try] defers.  [r] is what [recover()] returns; the
    named results [(retval, err)] of [Try] are read and written by it. *)
Definition Try_deferred (T : kind) (r : any) (results : carrier T * error)
    : M (carrier T * error) :=
  match r with
  | Some _ =>
      let retval := Zero T in
      err <- Errorf "panic: " r ;;
      ret (retval, err)
  | None => ret results
  end.

(** [Try]: the named results start at the zero values of their types;
    [return f(), nil] sets them when [f] returns; the deferred closure runs
    in both cases, and its call to [recover] ends a panic. *)
Definition Try (T : kind) (f : func0 (carrier T)) : M (carrier T * error) :=
  fun w =>
    let results : carrier T * error := (declared T, None) in
    match call0 f w with
    | (Returned v, w') => Try_deferred T None (v, None) w'
    | (Panicking p, w') => Try_deferred T (Some p) results w'
    end.

End Fmt.

(** [Must]. *)
Definition Must {T : Type} (v : T) (err : error) : M T :=
  match err with
  | Some _ => gopanic (error_to_any err)
  | None => ret v
  end.

(** [Handle]: the function it returns, applied to [(v, err)]. *)
Definition Handle {T : Type} (h : Handler) : T -> error -> M T :=
  fun v err =>
    match err with
    | Some _ =>
        err <- call_handler h err ;;
        match err with
        | Some _ => gopanic (error_to_any err)
        | None => ret v
        end
    | None => ret v
    end.

(** The variables of type [T] in memory, by address. *)
Abbreviation store T := (gmap loc T).

(** Whether a type has size zero ([struct{}], [[0]T], a struct of such
    fields).  A type of size zero has a single value. *)
Class GoSized (T : Type) : Type := {
  zero_size : bool;
  zero_size_unique : zero_size = true -> forall a b : T, a = b
}.
Arguments zero_size T {_}.

#[export] Instance int_GoSized : GoSized Z :=
  {| zero_size := false;
     zero_size_unique := fun H => match Bool.diff_false_true H with end |}.

#[export] Instance string_GoSized : GoSized string :=
  {| zero_size := false;
     zero_size_unique := fun H => match Bool.diff_false_true H with end |}.

#[export] Instance bool_GoSized : GoSized bool :=
  {| zero_size := false;
     zero_size_unique := fun H => match Bool.diff_false_true H with end |}.

#[export] Instance pointer_GoSized : GoSized (option loc) :=
  {| zero_size := false;
     zero_size_unique := fun H => match Bool.diff_false_true H with end |}.

(** [struct{}] *)
#[export] Instance empty_struct_GoSized : GoSized unit :=
  {| zero_size := true;
     zero_size_unique := fun _ a b =>
       match a, b with tt, tt => eq_refl end |}.

(** The address of a new variable of type [T].  A variable of non-zero
    size gets an address no other variable has.  For a variable of size
    zero the language leaves the address open (it may be that of another
    such variable): [place] is what the runtime picks. *)
Definition new_address {T : Type} `{GoSized T} (place : loc) (σ : store T)
    : loc :=
  if zero_size T then place else fresh (dom σ).

(** [Ptr]: the parameter [v] is a variable of its own, initialised with the
    argument; its address is returned. *)
Definition Ptr {T : Type} `{GoSized T} (place : loc) (v : T) (σ : store T)
    : loc * store T :=
  let p := new_address place σ in
  (p, <[p := v]> σ).

(** Reading and assigning a variable through its address. *)
Definition load {T : Type} (p : loc) (σ : store T) : option T := σ !! p.

Definition assign {T : Type} (p : loc) (v : T) (σ : store T) : store T :=
  <[p := v]> σ.

(** ** Callbacks used by the package's tests *)

(** [func(err error) error { return err }] *)
Definition strict_handler : Handler := Some (fun err => ret err).

(** [func(err error) error { return nil }] *)
Definition ignore_handler : Handler := Some (fun _ => ret None).

(** A handler that reports being called and then echoes the error, as the
    one of TestHandle_NoError. *)
Definition reporting_handler : Handler :=
  Some (fun err =>
          u <- output "Handler should not be called when there's no error" ;;
          ret err).

(** A rendering of the scalar kinds, enough to replay the tests: integers in
    decimal, strings as they are, booleans as [true] and [false].  Operands
    of the other kinds are not formatted by any test; they get a
    placeholder here. *)
Definition fmt_scalar (T : kind) : carrier T -> string :=
  match T with
  | KInt => fun v => pretty v
  | KString => fun v => v
  | KBool => fun v => if v then "true" else "false"
  | _ => fun _ => "?"
  end.

(** The world the examples start in. *)
Definition w0 : world := World 1%positive [].

End Sugar.

(** ** How the package is used

    The combinations of the five functions that the package's own
    documentation and tests write out. *)

Module Patterns.
Import GoTypes Runtime Sugar.

Section Fmt.

Context (fmt_value : forall T : kind, carrier T -> string).

(** [Try(func() T { return Must(v, err) })]: an error turned into a panic
    and back, as in the safeUnmarshal and LoadConfig examples. *)
Definition Try_Must (T : kind) (v : carrier T) (err : error)
    : M (carrier T * error) :=
  Try fmt_value T (Some (Must v err)).

(** [Try(func() T { return processor(v, err) })] with
    [processor := Handle[T](h)], as in the ProcessUserData example. *)
Definition Try_Handle (T : kind) (h : Handler) (v : carrier T) (err : error)
    : M (carrier T * error) :=
  Try fmt_value T (Some (Handle h v err)).

End Fmt.

(** [Must(getValue2(Must(getValue1())))], the chaining of
    TestMust_UsagePatterns: the inner call is evaluated first, its value
    feeds the outer function. *)
Definition Must_chain {A B : Type} (getValue1 : M (A * error))
    (getValue2 : A -> M (B * error)) : M B :=
  r1 <- getValue1 ;;
  x <- Must r1.1 r1.2 ;;
  r2 <- getValue2 x ;;
  Must r2.1 r2.2.

(** [[]*T{Ptr(v1), ..., Ptr(vn)}]: the elements of the literal are
    evaluated from left to right, one call of [Ptr] each; [places i] is
    the runtime's pick for the i-th call when [T] has size zero. *)
Fixpoint Ptrs {T : Type} `{GoSized T} (places : nat -> loc) (vs : list T)
    (σ : store T) : list loc * store T :=
  match vs with
  | [] => ([], σ)
  | v :: vs' =>
      let r := Ptr (places 0%nat) v σ in
      let rs := Ptrs (fun i => places (S i)) vs' r.2 in
      (r.1 :: rs.1, rs.2)
  end.

(** A handler answering every error with the same other error, after
    TestHandle_ErrorTransformation. *)
Definition transform_handler (transformed : error_obj) : Handler :=
  Some (fun _ => ret (Some transformed)).

End Patterns.

(** ** Properties *)

Module SugarSpec.
Import GoTypes Runtime Sugar.

(** *** Zero *)

Lemma Zero_scalars :
  Zero KInt = 0%Z /\ Zero KString = "" /\ Zero KBool = false.
Proof. repeat split. Qed.

Lemma Zero_references (E K V : kind) :
  Zero (KSlice E) = None /\ Zero (KMap K V) = None /\ Zero (KPtr E) = None.
Proof. repeat split. Qed.

Lemma Zero_struct_cons (name : string) (F : kind) (rest : fields) :
  Zero (KStruct (FCons name F rest)) = (Zero F, Zero (KStruct rest)).
Proof. reflexivity. Qed.

(** C8. For every kind of type (integer, text, boolean, slice, map, pointer,
    struct of such fields), [Zero] returns exactly the value that a variable
    of that type declared without an initialiser holds. *)
Theorem Zero_matches_declaration (T : kind) : Zero T = declared T.
Proof.
  induction T using kind_fields_ind
    with (P0 := fun fs => Zero_fields fs = declared_fields fs);
    simpl; congruence.
Qed.

(** TestZero_ConsistencyWithDeclaration, struct_consistency. *)
Example Zero_TestStruct :
  let TestStruct := KStruct (FCons "Name" KString (FCons "Age" KInt FNil)) in
  Zero TestStruct = ("", (0%Z, tt)) /\ declared TestStruct = Zero TestStruct.
Proof. split; reflexivity. Qed.

(** *** Ptr *)

Lemma Ptr_fresh {T : Type} `{GoSized T} (place : loc) (v : T) (σ : store T) :
  zero_size T = false -> σ !! (Ptr place v σ).1 = None.
Proof.
  intros Hsz. unfold Ptr, new_address. rewrite Hsz. simpl.
  apply not_elem_of_dom, is_fresh.
Qed.

Lemma Ptr_target {T : Type} `{GoSized T} (place : loc) (v : T) (σ : store T) :
  load (Ptr place v σ).1 (Ptr place v σ).2 = Some v.
Proof. apply lookup_insert_eq. Qed.

Lemma Ptr_distinct {T : Type} `{GoSized T} (place : loc) (v : T)
    (σ : store T) (x : loc) (u : T) :
  zero_size T = false -> load x σ = Some u -> (Ptr place v σ).1 <> x.
Proof.
  unfold load. intros Hsz Hx Heq.
  pose proof (Ptr_fresh place v σ Hsz) as Hf. rewrite Heq in Hf. congruence.
Qed.

(** A variable that shares its address with the new one has a type of size
    zero, hence the value the new one has. *)
Lemma Ptr_shared_value {T : Type} `{GoSized T} (place : loc) (v : T)
    (σ : store T) (x : loc) (u : T) :
  load x σ = Some u -> (Ptr place v σ).1 = x -> forall a b : T, a = b.
Proof.
  intros Hx Heq. destruct (zero_size T) eqn:Hsz.
  - exact (zero_size_unique Hsz).
  - destruct (Ptr_distinct place v σ x u Hsz Hx Heq).
Qed.

Lemma Ptr_frame {T : Type} `{GoSized T} (place : loc) (v : T) (σ : store T)
    (x : loc) (u : T) :
  load x σ = Some u -> load x (Ptr place v σ).2 = Some u.
Proof.
  intros Hx. destruct (decide ((Ptr place v σ).1 = x)) as [Heq|Hne].
  - rewrite <- Heq, Ptr_target. f_equal.
    exact (Ptr_shared_value place v σ x u Hx Heq v u).
  - unfold load in *.
    change ((<[(Ptr place v σ).1 := v]> σ : store T) !! x = Some u).
    rewrite lookup_insert_ne; [exact Hx | exact Hne].
Qed.

(** C9. [Ptr v] returns the address of a variable that holds [v].  For any
    variable [x] of the caller that held [v]: assigning to [x] afterwards
    leaves the value behind the pointer at [v], and assigning through the
    pointer leaves [x] at [v]; the two addresses differ unless the type has
    size zero (then there is one value only, and nothing to change).  (For
    a slice, map or pointer type the value copied is the header or address:
    the two variables are independent, what they refer to is the same.) *)
Theorem Ptr_independent_copy {T : Type} `{GoSized T} (place : loc) (v : T)
    (σ : store T) :
  let p := (Ptr place v σ).1 in
  let σ' := (Ptr place v σ).2 in
  load p σ' = Some v /\
  (forall x : loc,
     load x σ = Some v ->
     (zero_size T = false -> p <> x) /\
     load x σ' = Some v /\
     (forall u : T,
        load p (assign x u σ') = Some v /\ load x (assign x u σ') = Some u) /\
     (forall u : T,
        load x (assign p u σ') = Some v /\ load p (assign p u σ') = Some u)).
Proof.
  intros p σ'.
  pose proof (Ptr_target place v σ) as Hp. fold p σ' in Hp.
  split; [exact Hp|].
  intros x Hx.
  pose proof (Ptr_frame place v σ x v Hx) as Hx'. fold σ' in Hx'.
  split; [intros Hsz; exact (Ptr_distinct place v σ x v Hsz Hx)|].
  split; [exact Hx'|].
  unfold load, assign in *.
  destruct (decide (p = x)) as [Heq|Hne].
  - pose proof (Ptr_shared_value place v σ x v Hx Heq) as Huniq.
    split; intros u; rewrite Heq, lookup_insert_eq;
      (split; [f_equal; apply Huniq | reflexivity]).
  - split; intros u; split.
    + rewrite lookup_insert_ne by congruence. exact Hp.
    + apply lookup_insert_eq.
    + rewrite lookup_insert_ne by congruence. exact Hx'.
    + apply lookup_insert_eq.
Qed.

Lemma Ptr_independent_copy_witness :
  let σ : store Z := {[ 3%positive := 42%Z ]} in
  load 3%positive σ = Some 42%Z /\
  (Ptr 1%positive 42%Z σ).1 <> 3%positive /\
  load (Ptr 1%positive 42%Z σ).1
       (assign 3%positive 100%Z (Ptr 1%positive 42%Z σ).2) = Some 42%Z /\
  load 3%positive
       (assign (Ptr 1%positive 42%Z σ).1 100%Z (Ptr 1%positive 42%Z σ).2)
    = Some 42%Z.
Proof.
  intros σ.
  assert (Hx : load 3%positive σ = Some 42%Z) by (vm_compute; reflexivity).
  split; [exact Hx|].
  destruct (proj2 (Ptr_independent_copy 1%positive 42%Z σ) 3%positive Hx)
    as (Hne & _ & Hvar & Hptr).
  split; [apply Hne; reflexivity|].
  split; [exact (proj1 (Hvar 100%Z)) | exact (proj1 (Hptr 100%Z))].
Defined.

(** The note of ptr.go, replayed: [original := 42; ptr := Ptr(original);
    *ptr = 100] leaves [original] at 42 and [*ptr] at 100. *)
Example Ptr_note :
  let σ : store Z := {[ 3%positive := 42%Z ]} in
  let p := (Ptr 1%positive 42%Z σ).1 in
  let σ' := assign p 100%Z (Ptr 1%positive 42%Z σ).2 in
  load 3%positive σ' = Some 42%Z /\ load p σ' = Some 100%Z.
Proof. vm_compute. split; reflexivity. Qed.

(** For [struct{}] the pointer may be the address of the caller's own
    variable; reading and assigning through either still agree. *)
Example Ptr_empty_struct_may_share :
  let σ : store unit := {[ 3%positive := tt ]} in
  (Ptr 3%positive tt σ).1 = 3%positive /\
  load 3%positive (Ptr 3%positive tt σ).2 = Some tt.
Proof. vm_compute. split; reflexivity. Qed.

(** *** Must *)

(** C2. [Must v err] returns [v] when [err] is nil; when [err] is a non-nil
    error it panics, returns nothing, and the payload of the panic is that
    very error value. *)
Theorem Must_returns_or_panics {T : Type} (v : T) (w : world) :
  Must v None w = (Returned v, w) /\
  (forall e : error_obj, Must v (Some e) w = (Panicking (DynError e), w)).
Proof. split; [reflexivity | intros e; reflexivity]. Qed.

(** TestMust_WithError: the recovered payload is the error passed in, not
    another error with the same text. *)
Example Must_payload_identity :
  Must 0%Z (Some (ErrorAt 5 "test error")) w0
    = (Panicking (DynError (ErrorAt 5 "test error")), w0) /\
  DynError (ErrorAt 5 "test error") <> DynError (ErrorAt 6 "test error") /\
  DynError (ErrorAt 5 "test error") <> DynValue KString "test error".
Proof. repeat split; discriminate. Qed.

(** *** Handle *)

Lemma Handle_no_error {T : Type} (h : Handler) (v : T) (w : world) :
  Handle h v None w = (Returned v, w).
Proof. reflexivity. Qed.

Lemma Handle_nil_handler {T : Type} (v : T) (e : error_obj) (w : world) :
  Handle None v (Some e) w
    = (Panicking (DynError (RuntimeError NilDereference)), w).
Proof. reflexivity. Qed.

(** C3. With the handler that echoes its argument, [Handle] ends as [Must]
    does on the same [(v, err)]: with [v] when [err] is nil, and panicking
    with the original [err] as payload otherwise. *)
Theorem Handle_strict_is_Must {T : Type} (v : T) (err : error) (w : world) :
  (Handle strict_handler v err w).1 = (Must v err w).1 /\
  (Must v err w).1
    = match err with
      | None => Returned v
      | Some e => Panicking (DynError e)
      end.
Proof. destruct err as [e|]; split; reflexivity. Qed.

(** C5. On [(v, nil)] the function built by [Handle] returns [v] whatever
    the handler is, and leaves the world as it found it: no handler was
    entered, nothing was written. *)
Theorem Handle_no_error_skips_handler {T : Type} (h : Handler) (v : T)
    (w : world) :
  Handle h v None w = (Returned v, w) /\
  handler_entries (trace (Handle h v None w).2) = handler_entries (trace w) /\
  (forall h' : Handler, Handle h' v None w = Handle h v None w).
Proof. repeat split. Qed.

(** TestHandle_NoError: the handler that would report its being called is
    never entered. *)
Example TestHandle_NoError :
  Handle reporting_handler "test value" None w0 = (Returned "test value", w0) /\
  Handle reporting_handler "test value" (Some (ErrorAt 5 "e")) w0
    = (Panicking (DynError (ErrorAt 5 "e")),
       World 1 [Output "Handler should not be called when there's no error";
                EnterHandler (Some (ErrorAt 5 "e"))]).
Proof. split; reflexivity. Qed.

(** C6, as stated: a nil handler makes the built function panic on every
    [(v, err)].  It does not on [("test", nil)]. *)
Lemma Handle_nil_handler_no_error_returns :
  ~ (forall (v : string) (err : error) (w : world),
       panicked (Handle None v err w) = true) /\
  Handle None "test" None w0 = (Returned "test", w0).
Proof.
  split; [|reflexivity].
  intros Hall. specialize (Hall "test" None w0). discriminate Hall.
Qed.

(** C6, amended. With a nil handler the built function panics on every
    [(v, err)] whose [err] is non-nil, with the runtime's error for a call
    through a nil function value; [v] is not returned. *)
Theorem Handle_nil_handler_panics_on_error {T : Type} (v : T) (e : error_obj)
    (w : world) :
  Handle None v (Some e) w
    = (Panicking (DynError (RuntimeError NilDereference)), w) /\
  panicked (Handle None v (Some e) w) = true.
Proof. split; reflexivity. Qed.

(** C7. With the handler that always answers nil, the built function never
    panics and returns [v], whatever [err] is. *)
Theorem Handle_ignore_returns {T : Type} (v : T) (err : error) (w : world) :
  (Handle ignore_handler v err w).1 = Returned v /\
  panicked (Handle ignore_handler v err w) = false.
Proof. destruct err as [e|]; split; reflexivity. Qed.

(** C10. With a nil handler, [(v, nil)] returns [v] without a panic; the
    built function panics exactly when [err] is non-nil, which is the only
    case where the handler is called. *)
Theorem Handle_nil_handler_only_on_error {T : Type} (v : T) (err : error)
    (w : world) :
  Handle None v None w = (Returned v, w) /\
  Handle None v err w
    = (match err with
       | None => Returned v
       | Some _ => Panicking (DynError (RuntimeError NilDereference))
       end, w) /\
  panicked (Handle None v err w) = bool_decide (err <> None).
Proof. destruct err as [e|]; repeat split. Qed.

(** *** Try *)

Section TrySpec.

Context (fmt_value : forall T : kind, carrier T -> string).

Lemma Try_deferred_not_panicking (T : kind) (results : carrier T * error)
    (w : world) :
  Try_deferred fmt_value T None results w = (Returned results, w).
Proof. reflexivity. Qed.

Lemma Try_deferred_recovers (T : kind) (p : dynval)
    (results : carrier T * error) (w : world) :
  Try_deferred fmt_value T (Some p) results w
    = (Returned (Zero T,
                 Some (ErrorAt (next_addr w)
                         ("panic: " ++ Sprint fmt_value (Some p)))),
       World (Pos.succ (next_addr w)) (trace w)).
Proof. reflexivity. Qed.

Lemma Try_returned (T : kind) (f : func0 (carrier T)) (w w' : world)
    (v : carrier T) :
  call0 f w = (Returned v, w') ->
  Try fmt_value T f w = (Returned (v, None), w').
Proof. intros Hcall. unfold Try. rewrite Hcall. reflexivity. Qed.

Lemma Try_panicking (T : kind) (f : func0 (carrier T)) (w w' : world)
    (p : dynval) :
  call0 f w = (Panicking p, w') ->
  Try fmt_value T f w
    = (Returned (Zero T,
                 Some (ErrorAt (next_addr w')
                         ("panic: " ++ Sprint fmt_value (Some p)))),
       World (Pos.succ (next_addr w')) (trace w')).
Proof.
  intros Hcall. unfold Try. rewrite Hcall. apply Try_deferred_recovers.
Qed.

(** C1. If [f()] returns [v], [Try f] returns [(v, nil)].  If [f()] panics
    with payload [p], [Try f] returns [(Zero T, e)] for a non-nil error [e]
    whose text is ["panic: "] followed by the rendering of [p] by [%v]. *)
Theorem Try_returns_or_recovers (T : kind) (f : func0 (carrier T))
    (w : world) :
  (forall (v : carrier T) (w' : world),
     call0 f w = (Returned v, w') ->
     Try fmt_value T f w = (Returned (v, None), w')) /\
  (forall (p : dynval) (w' : world),
     call0 f w = (Panicking p, w') ->
     exists (e : error_obj) (w'' : world),
       Try fmt_value T f w = (Returned (Zero T, Some e), w'') /\
       Error e = "panic: " ++ Sprint fmt_value (Some p)).
Proof.
  split.
  - intros v w' Hcall. exact (Try_returned T f w w' v Hcall).
  - intros p w' Hcall. eexists _, _. split.
    + exact (Try_panicking T f w w' p Hcall).
    + reflexivity.
Qed.

(** C4. If [f()] ends in [panic(nil)], [Try f] still returns
    [(Zero T, e)] with [e] non-nil, and the text of [e] is ["panic: "]
    followed by the text of the runtime's error for a nil panic. *)
Theorem Try_recovers_nil_panic (T : kind) (f : func0 (carrier T))
    (w w' : world) :
  call0 f w = gopanic None w' ->
  exists (e : error_obj) (w'' : world),
    Try fmt_value T f w = (Returned (Zero T, Some e), w'') /\
    Error e = "panic: panic called with nil argument".
Proof.
  intros Hcall. eexists _, _. split.
  - exact (Try_panicking T f w w' _ Hcall).
  - reflexivity.
Qed.

End TrySpec.

Lemma Try_returns_or_recovers_witness :
  Try fmt_scalar KInt (Some (ret 42%Z)) w0
    = (Returned (42%Z, None), record EnterFunc w0) /\
  exists (e : error_obj) (w'' : world),
    Try fmt_scalar KBool (Some (gopanic (Some (DynValue KInt 123%Z)))) w0
      = (Returned (Zero KBool, Some e), w'') /\
    Error e = "panic: 123".
Proof.
  split.
  - apply (proj1 (Try_returns_or_recovers fmt_scalar KInt (Some (ret 42%Z)) w0)).
    reflexivity.
  - apply (proj2 (Try_returns_or_recovers fmt_scalar KBool
                    (Some (gopanic (Some (DynValue KInt 123%Z)))) w0)
             (DynValue KInt 123%Z) (record EnterFunc w0)).
    reflexivity.
Defined.

Lemma Try_recovers_nil_panic_witness :
  exists (e : error_obj) (w'' : world),
    Try fmt_scalar (KSlice KInt) (Some (gopanic None)) w0
      = (Returned (None, Some e), w'') /\
    Error e = "panic: panic called with nil argument".
Proof.
  apply (Try_recovers_nil_panic fmt_scalar (KSlice KInt) (Some (gopanic None))
           w0 (record EnterFunc w0)).
  reflexivity.
Defined.

(** TestTry_WithPanic, replayed. *)
Example TestTry_WithPanic :
  Try fmt_scalar KInt
      (Some (gopanic (Some (DynValue KString "something went wrong")))) w0
    = (Returned (0%Z, Some (ErrorAt 1 "panic: something went wrong")),
       World 2 [EnterFunc]) /\
  Try fmt_scalar KString
      (Some (gopanic (Some (DynError (ErrorAt 1 "original error"))))) (World 2 [])
    = (Returned ("", Some (ErrorAt 2 "panic: original error")),
       World 3 [EnterFunc]) /\
  Try fmt_scalar KBool (Some (gopanic (Some (DynValue KInt 123%Z)))) w0
    = (Returned (false, Some (ErrorAt 1 "panic: 123")), World 2 [EnterFunc]) /\
  Try fmt_scalar (KSlice KInt) (Some (gopanic None)) w0
    = (Returned (None, Some (ErrorAt 1 "panic: panic called with nil argument")),
       World 2 [EnterFunc]).
Proof. repeat split. Qed.

(** A nil [f]: the call itself panics, and [Try] reports it. *)
Example Try_nil_func :
  Try fmt_scalar KInt None w0
    = (Returned
         (0%Z,
          Some (ErrorAt 1
                  "panic: runtime error: invalid memory address or nil pointer dereference")),
       World 2 []).
Proof. reflexivity. Qed.

End SugarSpec.

(** ** Further properties of the package and of its documented uses *)

Module SugarExtra.
Import GoTypes Runtime Sugar Patterns SugarSpec.

(** *** Handle, on an error the handler is asked about *)

Lemma Handle_answered {T : Type} (h : Handler) (v : T) (e : error_obj)
    (answer : error) (w w' : world) :
  call_handler h (Some e) w = (Returned answer, w') ->
  Handle h v (Some e) w
    = (match answer with
       | None => Returned v
       | Some e' => Panicking (DynError e')
       end, w').
Proof.
  intros Hcall. unfold Handle, bind. rewrite Hcall.
  destruct answer as [e'|]; reflexivity.
Qed.

(** When the handler returns, its answer decides: nil lets [v] through, an
    error becomes the payload of the panic, whether or not it is the error
    the handler was given. *)
Theorem Handle_follows_handler {T : Type} (h : Handler) (v : T)
    (e : error_obj) (answer : error) (w w' : world) :
  call_handler h (Some e) w = (Returned answer, w') ->
  Handle h v (Some e) w
    = (match answer with
       | None => Returned v
       | Some e' => Panicking (DynError e')
       end, w').
Proof. exact (Handle_answered h v e answer w w'). Qed.

Lemma Handle_follows_handler_witness :
  Handle (transform_handler (ErrorAt 2 "transformed error")) "test"
         (Some (ErrorAt 1 "original error")) w0
    = (Panicking (DynError (ErrorAt 2 "transformed error")),
       record (EnterHandler (Some (ErrorAt 1 "original error"))) w0).
Proof.
  apply (Handle_follows_handler
           (transform_handler (ErrorAt 2 "transformed error")) "test"
           (ErrorAt 1 "original error") (Some (ErrorAt 2 "transformed error"))
           w0 (record (EnterHandler (Some (ErrorAt 1 "original error"))) w0)).
  reflexivity.
Defined.

(** When the handler itself panics, that panic leaves [Handle] as it is:
    same payload, [v] not returned, no second panic raised. *)
Theorem Handle_handler_panic_propagates {T : Type} (h : Handler) (v : T)
    (e : error_obj) (p : dynval) (w w' : world) :
  call_handler h (Some e) w = (Panicking p, w') ->
  Handle h v (Some e) w = (Panicking p, w').
Proof. intros Hcall. unfold Handle, bind. rewrite Hcall. reflexivity. Qed.

Lemma Handle_handler_panic_propagates_witness :
  Handle (Some (fun _ => gopanic (Some (DynValue KString "handler failed"))))
         42%Z (Some (ErrorAt 1 "original error")) w0
    = (Panicking (DynValue KString "handler failed"),
       record (EnterHandler (Some (ErrorAt 1 "original error"))) w0).
Proof.
  apply (Handle_handler_panic_propagates
           (Some (fun _ => gopanic (Some (DynValue KString "handler failed"))))
           42%Z (ErrorAt 1 "original error")).
  reflexivity.
Defined.

(** *** Must, chained *)

(** In [Must(getValue2(Must(getValue1())))] a failure of the inner call
    wins: the chain panics with the inner error in the world the inner call
    left, whatever the outer function is, so the outer function never ran. *)
Theorem Must_chain_inner_failure {A B : Type} (getValue1 : M (A * error))
    (getValue2 : A -> M (B * error)) (x : A) (e : error_obj) (w w1 : world) :
  getValue1 w = (Returned (x, Some e), w1) ->
  Must_chain getValue1 getValue2 w = (Panicking (DynError e), w1).
Proof. intros H1. unfold Must_chain, bind. rewrite H1. reflexivity. Qed.

Lemma Must_chain_inner_failure_witness :
  Must_chain (ret (0%Z, Some (ErrorAt 1 "function failed")))
             (fun x => u <- output "outer" ;; ret ((x * 2)%Z, None)) w0
    = (Panicking (DynError (ErrorAt 1 "function failed")), w0).
Proof.
  apply (Must_chain_inner_failure _ _ 0%Z (ErrorAt 1 "function failed") w0 w0).
  reflexivity.
Defined.

(** When the inner call succeeds with [x], the chain ends as [Must] does on
    what the outer function returns for [x]. *)
Theorem Must_chain_inner_success {A B : Type} (getValue1 : M (A * error))
    (getValue2 : A -> M (B * error)) (x : A) (y : B) (err : error)
    (w w1 w2 : world) :
  getValue1 w = (Returned (x, None), w1) ->
  getValue2 x w1 = (Returned (y, err), w2) ->
  Must_chain getValue1 getValue2 w = Must y err w2.
Proof.
  intros H1 H2. unfold Must_chain, bind. rewrite H1. simpl. rewrite H2.
  reflexivity.
Qed.

(** TestMust_UsagePatterns, chaining. *)
Lemma Must_chain_inner_success_witness :
  Must_chain (ret (5%Z, None)) (fun x => ret ((x * 2)%Z, None)) w0
    = (Returned 10%Z, w0).
Proof.
  apply (Must_chain_inner_success (ret (5%Z, None))
           (fun x => ret ((x * 2)%Z, None)) 5%Z 10%Z None w0 w0 w0);
    reflexivity.
Defined.

(** *** Try *)

Section TryExtra.

Context (fmt_value : forall T : kind, carrier T -> string).

Lemma panic_prefix_differs (s : string) : "panic: " ++ s <> s.
Proof.
  intros Heq. apply (f_equal String.length) in Heq.
  change (7 + String.length s = String.length s)%nat in Heq. lia.
Qed.

(** The error [Try] hands back is nil exactly when [f] returned, and
    whenever it is not nil the value beside it is [Zero T]: testing
    [err != nil] tells a caller whether [f] panicked. *)
Theorem Try_error_iff_panic (T : kind) (f : func0 (carrier T)) (w : world) :
  exists (v : carrier T) (err : error) (w' : world),
    Try fmt_value T f w = (Returned (v, err), w') /\
    (match err with Some _ => true | None => false end
       = panicked (call0 f w)) /\
    match err with
    | Some _ => v = Zero T
    | None => call0 f w = (Returned v, w')
    end.
Proof.
  destruct (call0 f w) as [[v|p] w1] eqn:Hcall.
  - exists v, None, w1. rewrite (Try_returned _ _ _ _ _ _ Hcall). repeat split.
  - eexists _, _, _. rewrite (Try_panicking _ _ _ _ _ _ Hcall). repeat split.
Qed.


(** A nil [f] is no exception: the call through it panics, [Try] recovers
    and reports the runtime's error, without any function being entered. *)
Theorem Try_nil_func_reported (T : kind) (w : world) :
  Try fmt_value T None w
    = (Returned
         (Zero T,
          Some (ErrorAt (next_addr w)
                  "panic: runtime error: invalid memory address or nil pointer dereference")),
       World (Pos.succ (next_addr w)) (trace w)).
Proof. reflexivity. Qed.

(** When [f] panics with an error value, the error [Try] returns is never
    that value: it is a new error whose text carries the prefix, and the
    original is not kept inside it. *)
Theorem Try_error_is_not_payload (T : kind) (f : func0 (carrier T))
    (e : error_obj) (w w' : world) :
  call0 f w = (Panicking (DynError e), w') ->
  exists (e' : error_obj) (w'' : world),
    Try fmt_value T f w = (Returned (Zero T, Some e'), w'') /\
    Error e' = "panic: " ++ Error e /\
    e' <> e.
Proof.
  intros Hcall. eexists _, _.
  rewrite (Try_panicking _ _ _ _ _ _ Hcall). split; [reflexivity|].
  split; [reflexivity|].
  intros Heq. apply (f_equal Error) in Heq. simpl in Heq.
  exact (panic_prefix_differs _ Heq).
Qed.

(** *** Try around Must, Try around Handle *)

(** [Try(func() T { return Must(v, err) })] gives [(v, nil)] back for a nil
    [err]; for an error [e] it gives [(Zero T, e')] where the text of [e']
    is ["panic: "] followed by the text of [e], whatever [%v] does on other
    operands.  The value [v] is lost in that case. *)
Theorem Try_Must_round_trip (T : kind) (v : carrier T) (err : error)
    (w : world) :
  Try_Must fmt_value T v err w
    = match err with
      | None => (Returned (v, None), record EnterFunc w)
      | Some e =>
          (Returned (Zero T,
                     Some (ErrorAt (next_addr w) ("panic: " ++ Error e))),
           World (Pos.succ (next_addr w)) (EnterFunc :: trace w))
      end.
Proof. destruct err as [e|]; reflexivity. Qed.

(** [Try] around the function built by [Handle]: no panic gets out.  With
    no error, or an error the handler resolves, the result is [(v, nil)];
    an error the handler answers with [e'] comes back as [(Zero T, e'')]
    with text ["panic: "] followed by the text of [e']. *)
Theorem Try_Handle_reports (T : kind) (h : Handler) (v : carrier T)
    (w : world) :
  Try_Handle fmt_value T h v None w = (Returned (v, None), record EnterFunc w) /\
  (forall (e : error_obj) (w' : world),
     call_handler h (Some e) (record EnterFunc w) = (Returned None, w') ->
     Try_Handle fmt_value T h v (Some e) w = (Returned (v, None), w')) /\
  (forall (e e' : error_obj) (w' : world),
     call_handler h (Some e) (record EnterFunc w) = (Returned (Some e'), w') ->
     Try_Handle fmt_value T h v (Some e) w
       = (Returned (Zero T,
                    Some (ErrorAt (next_addr w') ("panic: " ++ Error e'))),
          World (Pos.succ (next_addr w')) (trace w'))).
Proof.
  split; [reflexivity|]. split.
  - intros e w' Hcall. unfold Try_Handle.
    apply Try_returned.
    change (Handle h v (Some e) (record EnterFunc w) = (Returned v, w')).
    exact (Handle_answered h v e None _ w' Hcall).
  - intros e e' w' Hcall. unfold Try_Handle.
    rewrite (Try_panicking fmt_value T _ w w' (DynError e')); [reflexivity|].
    change (Handle h v (Some e) (record EnterFunc w)
              = (Panicking (DynError e'), w')).
    exact (Handle_answered h v e (Some e') _ w' Hcall).
Qed.

(** A nil handler behind [Try]: the abort of [Handle] on a non-nil error is
    reported as an error, the handler never having been entered. *)
Theorem Try_Handle_nil_handler (T : kind) (v : carrier T) (e : error_obj)
    (w : world) :
  Try_Handle fmt_value T None v (Some e) w
    = (Returned
         (Zero T,
          Some (ErrorAt (next_addr w)
                  "panic: runtime error: invalid memory address or nil pointer dereference")),
       World (Pos.succ (next_addr w)) (EnterFunc :: trace w)).
Proof. reflexivity. Qed.

End TryExtra.

Lemma Try_error_is_not_payload_witness :
  exists (e' : error_obj) (w'' : world),
    Try fmt_scalar KString
        (Some (gopanic (Some (DynError (ErrorAt 1 "original error")))))
        (World 2 [])
      = (Returned (Zero KString, Some e'), w'') /\
    Error e' = "panic: original error" /\
    e' <> ErrorAt 1 "original error".
Proof.
  apply (Try_error_is_not_payload fmt_scalar KString
           (Some (gopanic (Some (DynError (ErrorAt 1 "original error")))))
           (ErrorAt 1 "original error") (World 2 [])
           (record EnterFunc (World 2 []))).
  reflexivity.
Defined.

Lemma Try_Handle_reports_witness :
  Try_Handle fmt_scalar KInt ignore_handler 5%Z (Some (ErrorAt 1 "some error")) w0
    = (Returned (5%Z, None),
       World 1 [EnterHandler (Some (ErrorAt 1 "some error")); EnterFunc]) /\
  Try_Handle fmt_scalar KInt (transform_handler (ErrorAt 2 "always fail")) 5%Z
             (Some (ErrorAt 1 "some error")) (World 3 [])
    = (Returned (0%Z, Some (ErrorAt 3 "panic: always fail")),
       World 4 [EnterHandler (Some (ErrorAt 1 "some error")); EnterFunc]).
Proof.
  split.
  - apply (proj1 (proj2 (Try_Handle_reports fmt_scalar KInt ignore_handler 5%Z w0))
             (ErrorAt 1 "some error")).
    reflexivity.
  - apply (proj2 (proj2 (Try_Handle_reports fmt_scalar KInt
                           (transform_handler (ErrorAt 2 "always fail")) 5%Z
                           (World 3 [])))
             (ErrorAt 1 "some error") (ErrorAt 2 "always fail")
             (World 3 [EnterHandler (Some (ErrorAt 1 "some error")); EnterFunc])).
    reflexivity.
Defined.

(** *** Ptr, once and repeatedly *)

Lemma Ptrs_frame {T : Type} `{GoSized T} (vs : list T) :
  forall (places : nat -> loc) (σ : store T) (x : loc) (u : T),
    load x σ = Some u -> load x (Ptrs places vs σ).2 = Some u.
Proof.
  induction vs as [|v vs IH]; intros places σ x u Hx.
  - exact Hx.
  - change (load x (Ptrs (fun i => places (S i)) vs
                      (Ptr (places 0%nat) v σ).2).2 = Some u).
    apply IH. exact (Ptr_frame (places 0%nat) v σ x u Hx).
Qed.

Lemma Ptrs_fresh {T : Type} `{GoSized T} (vs : list T) :
  zero_size T = false ->
  forall (places : nat -> loc) (σ : store T) (p : loc),
    p ∈ (Ptrs places vs σ).1 -> load p σ = None.
Proof.
  intros Hsz.
  induction vs as [|v vs IH]; intros places σ p Hin.
  - inversion Hin.
  - change (p ∈ (Ptr (places 0%nat) v σ).1
              :: (Ptrs (fun i => places (S i)) vs
                    (Ptr (places 0%nat) v σ).2).1) in Hin.
    apply elem_of_cons in Hin as [->|Hin].
    + exact (Ptr_fresh (places 0%nat) v σ Hsz).
    + specialize (IH _ _ _ Hin). unfold load in *.
      change ((<[(Ptr (places 0%nat) v σ).1 := v]> σ : store T) !! p = None)
        in IH.
      destruct (decide ((Ptr (places 0%nat) v σ).1 = p)) as [Heq|Hne].
      * rewrite Heq, lookup_insert_eq in IH. discriminate IH.
      * rewrite lookup_insert_ne in IH by exact Hne. exact IH.
Qed.

Lemma Ptrs_NoDup {T : Type} `{GoSized T} (vs : list T) :
  zero_size T = false ->
  forall (places : nat -> loc) (σ : store T), NoDup (Ptrs places vs σ).1.
Proof.
  intros Hsz.
  induction vs as [|v vs IH]; intros places σ.
  - constructor.
  - change (NoDup ((Ptr (places 0%nat) v σ).1
                     :: (Ptrs (fun i => places (S i)) vs
                           (Ptr (places 0%nat) v σ).2).1)).
    constructor; [|apply IH].
    intros Hin. apply (Ptrs_fresh vs Hsz) in Hin.
    rewrite Ptr_target in Hin. discriminate Hin.
Qed.

Lemma Ptrs_targets {T : Type} `{GoSized T} (vs : list T) :
  forall (places : nat -> loc) (σ : store T) (i : nat) (p : loc),
    (Ptrs places vs σ).1 !! i = Some p ->
    load p (Ptrs places vs σ).2 = vs !! i.
Proof.
  induction vs as [|v vs IH]; intros places σ i p Hi.
  - destruct i; discriminate Hi.
  - change (((Ptr (places 0%nat) v σ).1
               :: (Ptrs (fun i => places (S i)) vs
                     (Ptr (places 0%nat) v σ).2).1) !! i = Some p) in Hi.
    change (load p (Ptrs (fun i => places (S i)) vs
                      (Ptr (places 0%nat) v σ).2).2 = (v :: vs) !! i).
    destruct i as [|i].
    + injection Hi as <-. apply Ptrs_frame. apply Ptr_target.
    + apply IH. exact Hi.
Qed.

Lemma Ptrs_length {T : Type} `{GoSized T} (vs : list T) :
  forall (places : nat -> loc) (σ : store T),
    length (Ptrs places vs σ).1 = length vs.
Proof.
  induction vs as [|v vs IH]; intros places σ; [reflexivity|].
  change (S (length (Ptrs (fun i => places (S i)) vs
                       (Ptr (places 0%nat) v σ).2).1) = S (length vs)).
  f_equal. apply IH.
Qed.

(** [Ptr] only adds to the store: the address it returns is the one address
    added and every variable that existed keeps its value; unless the type
    has size zero, that address was not in use before. *)
Theorem Ptr_extends_store {T : Type} `{GoSized T} (place : loc) (v : T)
    (σ : store T) :
  (zero_size T = false -> load (Ptr place v σ).1 σ = None) /\
  dom (Ptr place v σ).2 = {[ (Ptr place v σ).1 ]} ∪ dom σ /\
  (forall (x : loc) (u : T),
     load x σ = Some u -> load x (Ptr place v σ).2 = Some u).
Proof.
  split; [exact (Ptr_fresh place v σ)|]. split.
  - apply dom_insert_L.
  - intros x u Hx. exact (Ptr_frame place v σ x u Hx).
Qed.

Lemma Ptr_extends_store_witness :
  let σ : store Z := {[ 3%positive := 42%Z ]} in
  load (Ptr 1%positive 7%Z σ).1 σ = None /\
  load 3%positive (Ptr 1%positive 7%Z σ).2 = Some 42%Z.
Proof.
  intros σ. split.
  - apply (proj1 (Ptr_extends_store 1%positive 7%Z σ)). reflexivity.
  - apply (proj2 (proj2 (Ptr_extends_store 1%positive 7%Z σ)) 3%positive 42%Z).
    vm_compute. reflexivity.
Defined.

(** A literal [[]*T{Ptr(v1), ..., Ptr(vn)}] yields [n] addresses, the i-th
    one leading to the i-th value (equal values included), and leaves the
    variables that existed with their values.  Unless [T] has size zero the
    addresses are pairwise distinct and none was in use before. *)
Theorem Ptrs_distinct_targets {T : Type} `{GoSized T} (places : nat -> loc)
    (vs : list T) (σ : store T) :
  length (Ptrs places vs σ).1 = length vs /\
  (zero_size T = false ->
   NoDup (Ptrs places vs σ).1 /\
   (forall p : loc, p ∈ (Ptrs places vs σ).1 -> load p σ = None)) /\
  (forall (i : nat) (p : loc),
     (Ptrs places vs σ).1 !! i = Some p ->
     load p (Ptrs places vs σ).2 = vs !! i) /\
  (forall (x : loc) (u : T),
     load x σ = Some u -> load x (Ptrs places vs σ).2 = Some u).
Proof.
  split; [apply Ptrs_length|].
  split.
  { intros Hsz. split; [apply (Ptrs_NoDup vs Hsz) | apply (Ptrs_fresh vs Hsz)]. }
  split; [apply Ptrs_targets | apply Ptrs_frame].
Qed.

Lemma Ptrs_distinct_targets_witness :
  let σ : store Z := {[ 3%positive := 42%Z ]} in
  let r := Ptrs (fun _ => 1%positive) [1%Z; 1%Z; 3%Z] σ in
  r.1 !! 1%nat = Some 5%positive /\
  NoDup r.1 /\
  load 5%positive r.2 = Some 1%Z /\
  load 3%positive r.2 = Some 42%Z.
Proof.
  intros σ r.
  assert (H1 : r.1 !! 1%nat = Some 5%positive) by (vm_compute; reflexivity).
  assert (Hx : load 3%positive σ = Some 42%Z) by (vm_compute; reflexivity).
  destruct (Ptrs_distinct_targets (fun _ => 1%positive) [1%Z; 1%Z; 3%Z] σ)
    as (_ & Hd & Ht & Hf).
  split; [exact H1|].
  split; [exact (proj1 (Hd eq_refl))|]. split.
  - exact (Ht 1%nat 5%positive H1).
  - exact (Hf 3%positive 42%Z Hx).
Defined.

(** For [struct{}] the runtime may hand out one address twice. *)
Example Ptrs_empty_struct_may_coincide :
  (Ptrs (fun _ => 1%positive) [tt; tt] (∅ : store unit)).1
    = [1%positive; 1%positive].
Proof. vm_compute. reflexivity. Qed.

End SugarExtra.
